(** * Vexa pre-join API ([server.py]): shallow embedding and verified properties

    The server is a FastAPI application over one SQLite table.  The model
    below follows [server.py] handler by handler:

    - text is a Rocq [string]; one character of the model stands for one
      character of the Python / SQLite string.  The text primitives
      ([strip], [lower], SQLite's case folding) are given on the ASCII range
      and leave every other character unchanged, which is exact for ASCII
      text;
    - Python integers are [Z];
    - an exception is a value of [Exception]; a call that may raise returns a
      [Result];
    - the database file is a [Database]: the rows of [prejoin_submissions] in
      rowid order together with the AUTOINCREMENT counter.  The engine is
      taken to work (no I/O fault, no lock contention, rowids not exhausted,
      bound integers within 64 bits); requests are handled one after the
      other;
    - what the process reads from outside (clock, environment variables,
      whether a thread can be started, how the SMTP server behaves) is a
      [Runtime] record. *)

From Stdlib Require Import ZArith List String Ascii Bool Lia Permutation Sorted.
From Stdlib Require Import DecimalString.
Import ListNotations.

Local Open Scope string_scope.
Local Open Scope Z_scope.

(** ** Python text primitives *)

Module PyStr.

Definition ord (c : ascii) : Z := Z.of_N (N_of_ascii c).

(** [str.isspace] on the ASCII range: TAB, LF, VT, FF, CR, the four
    separators 0x1c-0x1f and the space. *)
Definition isspace (c : ascii) : bool :=
  ((9 <=? ord c) && (ord c <=? 13)) || ((28 <=? ord c) && (ord c <=? 32)).

Fixpoint lstrip (s : string) : string :=
  match s with
  | EmptyString => EmptyString
  | String c s' => if isspace c then lstrip s' else s
  end.

Fixpoint rstrip (s : string) : string :=
  match s with
  | EmptyString => EmptyString
  | String c s' =>
      match rstrip s' with
      | EmptyString => if isspace c then EmptyString else String c EmptyString
      | r => String c r
      end
  end.

(** [s.strip()] *)
Definition strip (s : string) : string := rstrip (lstrip s).

Definition lower_char (c : ascii) : ascii :=
  if (65 <=? ord c) && (ord c <=? 90)
  then ascii_of_N (N_of_ascii c + 32)
  else c.

(** [s.lower()] *)
Fixpoint lower (s : string) : string :=
  match s with
  | EmptyString => EmptyString
  | String c s' => String (lower_char c) (lower s')
  end.

(** Truth value of a string: [bool(s)]. *)
Definition truthy (s : string) : bool :=
  match s with EmptyString => false | _ => true end.

(** [x or default] for an optional string. *)
Definition or_else (x : option string) (default : string) : string :=
  match x with
  | Some s => if truthy s then s else default
  | None => default
  end.

Definition digit (c : ascii) : option Z :=
  if (48 <=? ord c) && (ord c <=? 57) then Some (ord c - 48) else None.

(** Digits of an integer literal; single underscores may separate digits. *)
Fixpoint int_digits (s : string) (acc : Z) (after_digit : bool) : option Z :=
  match s with
  | EmptyString => if after_digit then Some acc else None
  | String c s' =>
      if Ascii.eqb c "_"
      then (if after_digit then int_digits s' acc false else None)
      else match digit c with
           | Some d => int_digits s' (10 * acc + d) true
           | None => None
           end
  end.

(** [int(s)]: [None] stands for the [ValueError]. *)
Definition int (s : string) : option Z :=
  match strip s with
  | String "-" r => option_map Z.opp (int_digits r 0 false)
  | String "+" r => int_digits r 0 false
  | r => int_digits r 0 false
  end.


(** [x in (a, b, ...)] for strings. *)
Definition str_in (x : string) (xs : list string) : bool :=
  existsb (String.eqb x) xs.

End PyStr.

(** ** Exceptions and results *)

Inductive Exception : Type :=
| HTTPException (status_code : Z) (detail : string)
| RequestValidationError (msg : string)
| IntegrityError (msg : string)
| ValueError (msg : string)
| RuntimeError (msg : string)
| OSError (msg : string)
| SMTPException (msg : string).

(** [str(e)] *)
Definition str (e : Exception) : string :=
  match e with
  | HTTPException _ d => d
  | RequestValidationError m | IntegrityError m | ValueError m
  | RuntimeError m | OSError m | SMTPException m => m
  end.

Inductive Result (A : Type) : Type :=
| Return (a : A)
| Raise (e : Exception).
Arguments Return {A} a.
Arguments Raise {A} e.

(** [try: body except Exception: handler] *)
Definition try_except {A : Type} (body : Result A) (handler : Exception -> Result A)
  : Result A :=
  match body with
  | Return a => Return a
  | Raise e => handler e
  end.

(** Status line the framework derives from what a handler did. *)
Definition status_of {A : Type} (r : Result A) : Z :=
  match r with
  | Return _ => 200
  | Raise (HTTPException code _) => code
  | Raise (RequestValidationError _) => 422
  | Raise _ => 500
  end.

(** ** The table [prejoin_submissions] *)

Record Row : Type := {
  id : Z;
  full_name : string;
  email : string;
  consent : Z;
  created_at : string;
  user_agent : option string;
  ip : option string
}.

Record Database : Type := {
  prejoin_submissions : list Row;   (* in rowid order *)
  sqlite_sequence : Z               (* largest rowid handed out so far *)
}.

(** ** SQLite operators used by the queries *)

Module Sqlite.

(** Case folding of LIKE: ASCII letters only. *)
Definition tolower (c : ascii) : ascii := PyStr.lower_char c.

Definition char_eq_nocase (c d : ascii) : bool :=
  Ascii.eqb (tolower c) (tolower d).

(** [text LIKE pattern] without ESCAPE clause: [%] matches any run of
    characters, [_] any single character, every other character itself up
    to ASCII case. *)
Fixpoint like (pattern : string) : string -> bool :=
  match pattern with
  | EmptyString =>
      fun text => match text with EmptyString => true | _ => false end
  | String c p =>
      if Ascii.eqb c "%" then
        fix any (text : string) : bool :=
          like p text ||
          match text with
          | EmptyString => false
          | String _ text' => any text'
          end
      else if Ascii.eqb c "_" then
        fun text =>
          match text with
          | EmptyString => false
          | String _ text' => like p text'
          end
      else
        fun text =>
          match text with
          | EmptyString => false
          | String d text' => char_eq_nocase c d && like p text'
          end
  end.

(** The sort key relation of [ORDER BY created_at DESC]: TEXT values under
    the BINARY collation. *)
Definition created_at_desc (r1 r2 : Row) : Prop :=
  String.leb (created_at r2) (created_at r1) = true.

(** What SQL promises of [ORDER BY created_at DESC]: the rows come back
    rearranged so that the key never increases.  The statement names no
    second key, so the place of rows with equal keys is the engine's
    choice; an engine is any function with these two properties.  Being a
    function, it returns the same rows in the same order each time. *)
Class OrderBy : Type := {
  order_by_created_at_desc : list Row -> list Row;
  order_by_permutation :
    forall t, Permutation t (order_by_created_at_desc t);
  order_by_sorted :
    forall t, Sorted created_at_desc (order_by_created_at_desc t)
}.

(** SQLite's own way: rows are fed to the sorter in rowid order and a row
    is placed after the rows already there whose key is not smaller, so rows
    with equal keys stay in rowid order. *)
Fixpoint sorter_insert (r : Row) (sorted : list Row) : list Row :=
  match sorted with
  | [] => [r]
  | x :: rest =>
      if String.leb (created_at r) (created_at x)
      then x :: sorter_insert r rest
      else r :: sorted
  end.

Definition sorter (t : list Row) : list Row :=
  fold_left (fun acc r => sorter_insert r acc) t [].

(** [LIMIT limit OFFSET offset]; a negative limit means no limit and a
    negative offset counts as zero. *)
Definition limit_offset {A : Type} (limit offset : Z) (l : list A) : list A :=
  let l' := skipn (Z.to_nat offset) l in
  if limit <? 0 then l' else firstn (Z.to_nat limit) l'.

End Sqlite.

(** ** Request payload and request context *)

(** [class PrejoinPayload(BaseModel)].  [EmailStr] is checked by the external
    e-mail validator; nothing below depends on what it accepts, so the
    [email] field ranges over all strings. *)
Module PrejoinPayload.
Record t : Type := {
  fullName : string;
  email : string;
  consent : bool
}.


End PrejoinPayload.

Record Client : Type := { host : string; port : Z }.

Record Request : Type := {
  headers : list (string * string);
  client : option Client
}.

(** [request.headers.get(name, default)]; header names compare without case. *)
Fixpoint headers_get (hs : list (string * string)) (name default : string) : string :=
  match hs with
  | [] => default
  | (k, v) :: hs' =>
      if String.eqb (PyStr.lower k) (PyStr.lower name) then v
      else headers_get hs' name default
  end.

(** ** Outgoing mail *)

Record EmailMessage : Type := {
  msg_from : string;
  msg_to : string;
  msg_subject : string;
  msg_content : string
}.

(** How the SMTP server answers each step of a session; [None] is success,
    [Some e] the exception the step raises. *)
Record Transport : Type := {
  smtp_connect : string -> Z -> option Exception;   (* smtplib.SMTP(host, port, timeout=10) *)
  smtp_starttls : option Exception;
  smtp_login : string -> string -> option Exception;
  smtp_send_message : EmailMessage -> option Exception;
  smtp_quit : option Exception                       (* leaving the [with] block *)
}.

(** ** What a request reads from outside the program *)

Record Runtime : Type := {
  utcnow_isoformat : string;               (* datetime.utcnow().isoformat() *)
  environ : list (string * string);        (* os.environ *)
  thread_start : option Exception;         (* threading.Thread(...).start() *)
  smtp : Transport
}.

(** [os.environ.get(name)] *)
Fixpoint environ_get (env : list (string * string)) (name : string) : option string :=
  match env with
  | [] => None
  | (k, v) :: env' => if String.eqb k name then Some v else environ_get env' name
  end.

(** [os.environ.get(name, default)] *)
Definition environ_get_default (env : list (string * string)) (name default : string)
  : string :=
  match environ_get env name with
  | Some v => v
  | None => default
  end.

(** The state a request can change: the database file and the messages the
    SMTP server has accepted. *)
Record State : Type := {
  db : Database;
  delivered : list EmailMessage
}.

Definition nl : string := String (ascii_of_nat 10) EmptyString.

(** ** [on_startup] *)

(** [CREATE TABLE IF NOT EXISTS]: [None] is a database file without the
    table. *)
Definition on_startup (file : option Database) : Database :=
  match file with
  | Some d => d
  | None => {| prejoin_submissions := []; sqlite_sequence := 0 |}
  end.

(** ** [_send_confirmation_email] *)

(** One SMTP command: raise what the server's answer maps to. *)
Definition step (answer : option Exception) : Result unit :=
  match answer with
  | Some e => Raise e
  | None => Return tt
  end.

(** Sequencing of a command with the rest of a block that also carries the
    accepted messages. *)
Definition and_then {S : Type} (r : Result unit) (k : Result unit * S) (s0 : S)
  : Result unit * S :=
  match r with
  | Return _ => k
  | Raise e => (Raise e, s0)
  end.

(** The body of the [with smtplib.SMTP(...) as smtp:] statement together with
    the connection and the exit of the block. *)
Definition smtp_session (tr : Transport) (host : string) (port : Z)
    (use_tls : bool) (user password : option string) (msg : EmailMessage)
    (sent : list EmailMessage) : Result unit * list EmailMessage :=
  match smtp_connect tr host port with
  | Some e => (Raise e, sent)
  | None =>
      let tls_step : Result unit :=
        if use_tls && ((port =? 587) || (port =? 25))
        then try_except (step (smtp_starttls tr)) (fun _ => Return tt)
        else Return tt in
      let login_step : Result unit :=
        match user, password with
        | Some u, Some p =>
            if PyStr.truthy u && PyStr.truthy p
            then try_except (step (smtp_login tr u p)) (fun _ => Return tt)
            else Return tt
        | _, _ => Return tt
        end in
      let body : Result unit * list EmailMessage :=
        and_then tls_step
          (and_then login_step
             match smtp_send_message tr msg with
             | Some e => (Raise e, sent)
             | None => (Return tt, (sent ++ [msg])%list)
             end sent) sent in
      (* leaving the block sends QUIT, whose own failure takes over *)
      match smtp_quit tr with
      | Some e' => (Raise e', snd body)
      | None => body
      end
  end.

Definition _send_confirmation_email (rt : Runtime) (sent : list EmailMessage)
    (to_email full_name : string) : Result unit * list EmailMessage :=
  let host := environ_get_default (environ rt) "SMTP_HOST" "127.0.0.1" in
  match PyStr.int (environ_get_default (environ rt) "SMTP_PORT" "1025") with
  | None => (Raise (ValueError "invalid literal for int() with base 10"), sent)
  | Some port =>
      let user := environ_get (environ rt) "SMTP_USER" in
      let password := environ_get (environ rt) "SMTP_PASS" in
      let use_tls :=
        PyStr.str_in (PyStr.lower (environ_get_default (environ rt) "SMTP_TLS" "true"))
                     ["1"; "true"; "yes"; "on"] in
      let from_addr := environ_get_default (environ rt) "SMTP_FROM" "noreply@vexa.local" in
      let subject := "Vexa ön kaydınız alındı" in
      let body :=
        "Merhaba " ++ full_name ++ "," ++ nl ++ nl ++
        "Ön kaydınızı aldık. Lansman ile ilgili ilk siz bilgilendirileceksiniz." ++ nl ++ nl ++
        "Teşekkürler," ++ nl ++ "Vexa Ekibi" in
      let msg := {| msg_from := from_addr; msg_to := to_email;
                    msg_subject := subject; msg_content := body |} in
      let attempt := smtp_session (smtp rt) host port use_tls user password msg sent in
      (* except Exception: pass *)
      (try_except (fst attempt) (fun _ => Return tt), snd attempt)
  end.

(** ** [create_prejoin] *)

Record OkBody : Type := { ok : bool }.

(** The INSERT statement.  The table constraints that can fail are the
    UNIQUE one on [email]; the values bound to the NOT NULL columns are
    never NULL. *)
Definition execute_insert (d : Database) (v_full_name v_email : string)
    (v_consent : Z) (v_created_at : string) (v_user_agent v_ip : option string)
  : Result Database :=
  if existsb (fun r => String.eqb (email r) v_email) (prejoin_submissions d)
  then Raise (IntegrityError "UNIQUE constraint failed: prejoin_submissions.email")
  else
    let rowid := sqlite_sequence d + 1 in
    Return {| prejoin_submissions :=
                (prejoin_submissions d ++
                [ {| id := rowid; full_name := v_full_name; email := v_email;
                     consent := v_consent; created_at := v_created_at;
                     user_agent := v_user_agent; ip := v_ip |} ])%list;
              sqlite_sequence := rowid |}.

Definition create_prejoin (rt : Runtime) (st : State)
    (data : PrejoinPayload.t) (request : Request) : Result OkBody * State :=
  if negb (PrejoinPayload.consent data)
  then (Raise (HTTPException 400 "Consent required"), st)
  else
    match execute_insert (db st)
            (PyStr.strip (PrejoinPayload.fullName data))
            (PyStr.strip (PyStr.lower (PrejoinPayload.email data)))
            (if PrejoinPayload.consent data then 1 else 0)
            (utcnow_isoformat rt ++ "Z")
            (Some (headers_get (headers request) "user-agent" EmptyString))
            (match client request with Some c => Some (host c) | None => None end)
    with
    | Raise (IntegrityError _) =>
        (Raise (HTTPException 409 "Email already registered"), st)
    | Raise e => (Raise e, st)
    | Return d' =>
        (* Send confirmation email in background (best-effort) *)
        let sent :=
          match thread_start rt with
          | Some _ => delivered st      (* except Exception: pass *)
          | None =>
              snd (_send_confirmation_email rt (delivered st)
                     (PrejoinPayload.email data) (PrejoinPayload.fullName data))
          end in
        (Return {| ok := true |}, {| db := d'; delivered := sent |})
    end.


(** ** CSV writer (default dialect: comma, double quote, minimal quoting,
    CRLF line ends) *)


Definition dquote : ascii := ascii_of_nat 34.










(** ** [list_prejoin] and [export_prejoin_csv] *)

Record PageBody : Type := {
  items : list Row;
  page : Z;
  pageSize : Z;
  total : Z
}.

(** [WHERE full_name LIKE ? OR email LIKE ?] with both parameters bound to
    [f"%{search}%"]; the clause is left out when [search] is empty. *)
Definition where_clause (search : string) (r : Row) : bool :=
  if PyStr.truthy search
  then
    let like := "%" ++ search ++ "%" in
    Sqlite.like like (full_name r) || Sqlite.like like (email r)
  else true.

(** The stored rows the search parameter [q] selects. *)
Definition matching (d : Database) (q : option string) : list Row :=
  filter (where_clause (PyStr.strip (PyStr.or_else q EmptyString)))
         (prejoin_submissions d).

Section Queries.

Context {engine : Sqlite.OrderBy}.

(** [q] is [None] when the parameter is absent; [page] and [limit] take
    their defaults 1 and 20 when absent and are checked against
    [ge=1] and [ge=1, le=100] before the body runs. *)
Definition list_prejoin (d : Database) (page_param limit_param : option Z)
    (q : option string) : Result PageBody :=
  let page := match page_param with Some n => n | None => 1 end in
  let limit := match limit_param with Some n => n | None => 20 end in
  if negb (1 <=? page)
  then Raise (RequestValidationError "ensure this value is greater than or equal to 1")
  else if negb (1 <=? limit)
  then Raise (RequestValidationError "ensure this value is greater than or equal to 1")
  else if negb (limit <=? 100)
  then Raise (RequestValidationError "ensure this value is less than or equal to 100")
  else
    let search := PyStr.strip (PyStr.or_else q EmptyString) in
    let selected := filter (where_clause search) (prejoin_submissions d) in
    let offset := (page - 1) * limit in
    let total := Z.of_nat (List.length selected) in
    let rows :=
      Sqlite.limit_offset limit offset
        (Sqlite.order_by_created_at_desc selected) in
    Return {| items := rows; page := page; pageSize := limit; total := total |}.

(** The rows fetched by the export query. *)
Definition export_rows (d : Database) (q : option string) : list Row :=
  let search := PyStr.strip (PyStr.or_else q EmptyString) in
  Sqlite.order_by_created_at_desc
    (filter (where_clause search) (prejoin_submissions d)).



End Queries.

(** ** [send_test_email] *)

(** [to] has passed the [EmailStr] check; [name] is [None] when absent. *)
Definition send_test_email (rt : Runtime) (sent : list EmailMessage)
    (to : string) (name : option string) : Result OkBody * list EmailMessage :=
  let call :=
    _send_confirmation_email rt sent to (PyStr.or_else name "Değerli Kullanıcı") in
  (try_except
     (match fst call with
      | Return _ => Return {| ok := true |}
      | Raise e => Raise e
      end)
     (fun e => Raise (HTTPException 500 (str e))),
   snd call).

(** ** [health] *)

Definition health : string * string := ("status", "ok").

(** ** The application as a whole *)

(** One request (or the startup hook) together with what it reads from
    outside. *)
Inductive Call : Type :=
| CallStartup
| CallCreatePrejoin (rt : Runtime) (data : PrejoinPayload.t) (request : Request)
| CallListPrejoin (page_param limit_param : option Z) (q : option string)
| CallExportCsv (q : option string)
| CallTestEmail (rt : Runtime) (to : string) (name : option string)
| CallHealth.

(** The state after a call; the two queries and [health] only read. *)
Definition call (c : Call) (st : State) : State :=
  match c with
  | CallStartup => {| db := on_startup (Some (db st)); delivered := delivered st |}
  | CallCreatePrejoin rt data request => snd (create_prejoin rt st data request)
  | CallListPrejoin _ _ _ => st
  | CallExportCsv _ => st
  | CallTestEmail rt to name =>
      {| db := db st; delivered := snd (send_test_email rt (delivered st) to name) |}
  | CallHealth => st
  end.

(** A fresh deployment: no table yet, nothing sent. *)
Definition initial : State :=
  {| db := on_startup None; delivered := [] |}.

Definition run (calls : list Call) : State :=
  fold_left (fun st c => call c st) calls initial.

(** ** The specification's own notions, for comparison with the code *)

(** Normalization as the specification words it: trim, then lower-case. *)
Definition spec_normalize (e : string) : string := PyStr.lower (PyStr.strip e).

Fixpoint starts_with (t s : string) : bool :=
  match t with
  | EmptyString => true
  | String a t' =>
      match s with
      | EmptyString => false
      | String b s' => Ascii.eqb a b && starts_with t' s'
      end
  end.

(** [t] occurs in [s] as a run of consecutive characters. *)
Fixpoint contains (t s : string) : bool :=
  starts_with t s ||
  match s with
  | EmptyString => false
  | String _ s' => contains t s'
  end.



(** The rows a page response carries; a rejected request carries none. *)
Definition items_of (r : Result PageBody) : list Row :=
  match r with
  | Return b => items b
  | Raise _ => []
  end.

(** The row an accepted call writes. *)
Definition inserted_row (rt : Runtime) (d : Database) (data : PrejoinPayload.t)
    (request : Request) : Row :=
  {| id := sqlite_sequence d + 1;
     full_name := PyStr.strip (PrejoinPayload.fullName data);
     email := PyStr.strip (PyStr.lower (PrejoinPayload.email data));
     consent := 1;
     created_at := (utcnow_isoformat rt ++ "Z")%string;
     user_agent := Some (headers_get (headers request) "user-agent" EmptyString);
     ip := match client request with Some c => Some (host c) | None => None end |}.

Definition email_taken (d : Database) (e : string) : bool :=
  existsb (fun r => String.eqb (email r) e) (prejoin_submissions d).

(** ** Predicates on the stored table *)

Definition all_consented (d : Database) : Prop :=
  Forall (fun r => consent r = 1) (prejoin_submissions d).

Definition rows_with_email (d : Database) (e : string) : list Row :=
  filter (fun r => String.eqb (email r) e) (prejoin_submissions d).

(** The table constraints and the AUTOINCREMENT rule: [id] is a primary key
    taken from the counter, [email] is UNIQUE. *)
Definition store_ok (d : Database) : Prop :=
  0 <= sqlite_sequence d /\
  NoDup (map id (prejoin_submissions d)) /\
  Forall (fun r => 1 <= id r <= sqlite_sequence d) (prejoin_submissions d) /\
  NoDup (map email (prejoin_submissions d)).



(** ** Reading CSV text back

    The export only writes.  To say what its text means, here is the reader
    of the same dialect (comma, double quote with doubling, CR, LF or CRLF
    line ends), as a spreadsheet or [csv.reader] applies it: a state machine
    over the characters.  It is not part of [server.py]. *)






(** ** Sample inputs used to run the model *)

Module Sample.

(** No SMTP server is listening. *)
Definition server_down : Transport :=
  {| smtp_connect := fun _ _ => Some (OSError "[Errno 111] Connection refused");
     smtp_starttls := None;
     smtp_login := fun _ _ => None;
     smtp_send_message := fun _ => None;
     smtp_quit := None |}.

(** A server that accepts everything. *)
Definition server_up : Transport :=
  {| smtp_connect := fun _ _ => None;
     smtp_starttls := None;
     smtp_login := fun _ _ => None;
     smtp_send_message := fun _ => None;
     smtp_quit := None |}.

(** A server that accepts the connection and refuses the message. *)
Definition server_rejects : Transport :=
  {| smtp_connect := fun _ _ => None;
     smtp_starttls := None;
     smtp_login := fun _ _ => None;
     smtp_send_message := fun _ => Some (SMTPException "550 mailbox unavailable");
     smtp_quit := None |}.

Definition runtime (now : string) (tr : Transport) : Runtime :=
  {| utcnow_isoformat := now; environ := []; thread_start := None; smtp := tr |}.

Definition request : Request :=
  {| headers := [("User-Agent", "curl/8.5.0")];
     client := Some {| host := "127.0.0.1"; port := 50000 |} |}.

Definition payload (name mail : string) (agreed : bool) : PrejoinPayload.t :=
  {| PrejoinPayload.fullName := name;
     PrejoinPayload.email := mail;
     PrejoinPayload.consent := agreed |}.

Definition noon : string := "2024-05-01T12:00:00.000001".

Definition later : string := "2024-05-01T12:00:02.500000".

(** A name with a comma, a quote and a line break in it. *)
Definition awkward_name : string :=
  ("Hopper, Grace " ++ String dquote ("Amazing" ++ String dquote (nl ++ "Rear Admiral")))%string.

Definition after_awkward : State :=
  run [CallStartup;
       CallCreatePrejoin (runtime noon server_down)
         (payload "Ada Lovelace" "ada@test.com" true) request;
       CallCreatePrejoin (runtime later server_down)
         (payload awkward_name "grace@test.com" true)
         {| headers := []; client := None |}].

(** One accepted submission on a fresh deployment. *)
Definition after_ada : State :=
  run [CallStartup;
       CallCreatePrejoin (runtime noon server_down)
         (payload "Ada Lovelace" "Ada@Test.com" true) request].

(** Two accepted submissions stamped with the same clock reading. *)
Definition same_instant : State :=
  run [CallStartup;
       CallCreatePrejoin (runtime noon server_down)
         (payload "Ada Lovelace" "ada@test.com" true) request;
       CallCreatePrejoin (runtime noon server_down)
         (payload "Grace Hopper" "grace@test.com" true) request].

End Sample.

(** * Properties *)

Local Open Scope list_scope.

(** ** The SQLite sorter is an [ORDER BY] engine *)

Module SorterFacts.
Import Sqlite.

Lemma sorter_insert_permutation (r : Row) (l : list Row) :
  Permutation (r :: l) (sorter_insert r l).
Proof.
  induction l as [|x l IH]; simpl.
  - apply Permutation_refl.
  - destruct (String.leb (created_at r) (created_at x)).
    + apply perm_trans with (x :: r :: l).
      * apply perm_swap.
      * apply perm_skip, IH.
    + apply Permutation_refl.
Qed.

Lemma sorter_insert_hd (x r : Row) (l : list Row) :
  created_at_desc x r -> HdRel created_at_desc x l ->
  HdRel created_at_desc x (sorter_insert r l).
Proof.
  intros Hxr Hxl. destruct l as [|y l]; simpl.
  - constructor. exact Hxr.
  - destruct (String.leb (created_at r) (created_at y)); constructor.
    + apply HdRel_inv in Hxl. exact Hxl.
    + exact Hxr.
Qed.

Lemma sorter_insert_sorted (r : Row) (l : list Row) :
  Sorted created_at_desc l -> Sorted created_at_desc (sorter_insert r l).
Proof.
  induction 1 as [|x l Hl IH Hx]; simpl.
  - repeat constructor.
  - destruct (String.leb (created_at r) (created_at x)) eqn:E.
    + constructor; [exact IH|]. apply sorter_insert_hd; assumption.
    + constructor.
      * constructor; assumption.
      * constructor. unfold created_at_desc.
        destruct (String.leb_total (created_at r) (created_at x)) as [H|H];
          [congruence | exact H].
Qed.

Lemma fold_sorter_permutation (t acc : list Row) :
  Permutation (acc ++ t)
    (fold_left (fun a r => sorter_insert r a) t acc).
Proof.
  revert acc. induction t as [|r t IH]; intro acc; simpl.
  - rewrite app_nil_r. apply Permutation_refl.
  - eapply perm_trans; [|apply IH].
    apply perm_trans with ((r :: acc) ++ t).
    + apply Permutation_sym, Permutation_middle.
    + apply Permutation_app_tail, sorter_insert_permutation.
Qed.

Lemma fold_sorter_sorted (t acc : list Row) :
  Sorted created_at_desc acc ->
  Sorted created_at_desc (fold_left (fun a r => sorter_insert r a) t acc).
Proof.
  revert acc. induction t as [|r t IH]; intros acc Hacc; simpl.
  - exact Hacc.
  - apply IH, sorter_insert_sorted, Hacc.
Qed.

Lemma sorter_permutation (t : list Row) : Permutation t (sorter t).
Proof. exact (fold_sorter_permutation t []). Qed.

Lemma sorter_sorted (t : list Row) : Sorted created_at_desc (sorter t).
Proof. apply fold_sorter_sorted. constructor. Qed.

End SorterFacts.

#[export] Instance sqlite_engine : Sqlite.OrderBy := {|
  Sqlite.order_by_created_at_desc := Sqlite.sorter;
  Sqlite.order_by_permutation := SorterFacts.sorter_permutation;
  Sqlite.order_by_sorted := SorterFacts.sorter_sorted
|}.

(** ** [create_prejoin]: the three ways a call can end *)

Lemma create_prejoin_no_consent rt st data request :
  PrejoinPayload.consent data = false ->
  create_prejoin rt st data request =
    (Raise (HTTPException 400 "Consent required"), st).
Proof.
  intro Hc. unfold create_prejoin. rewrite Hc. reflexivity.
Qed.

Lemma create_prejoin_duplicate rt st data request :
  PrejoinPayload.consent data = true ->
  email_taken (db st) (PyStr.strip (PyStr.lower (PrejoinPayload.email data))) = true ->
  create_prejoin rt st data request =
    (Raise (HTTPException 409 "Email already registered"), st).
Proof.
  intros Hc Ht. unfold create_prejoin, execute_insert.
  rewrite Hc. simpl. unfold email_taken in Ht. rewrite Ht. reflexivity.
Qed.

Lemma create_prejoin_fresh rt st data request :
  PrejoinPayload.consent data = true ->
  email_taken (db st) (PyStr.strip (PyStr.lower (PrejoinPayload.email data))) = false ->
  fst (create_prejoin rt st data request) = Return {| ok := true |} /\
  db (snd (create_prejoin rt st data request)) =
    {| prejoin_submissions :=
         prejoin_submissions (db st) ++ [inserted_row rt (db st) data request];
       sqlite_sequence := sqlite_sequence (db st) + 1 |}.
Proof.
  intros Hc Ht. unfold create_prejoin, execute_insert.
  rewrite Hc. simpl. unfold email_taken in Ht. rewrite Ht. simpl.
  split; reflexivity.
Qed.

(** Whatever the call, the database afterwards is the one before or the one
    before with [inserted_row] appended. *)
Lemma create_prejoin_db rt st data request :
  db (snd (create_prejoin rt st data request)) = db st \/
  (PrejoinPayload.consent data = true /\
   email_taken (db st) (PyStr.strip (PyStr.lower (PrejoinPayload.email data))) = false /\
   db (snd (create_prejoin rt st data request)) =
     {| prejoin_submissions :=
          prejoin_submissions (db st) ++ [inserted_row rt (db st) data request];
        sqlite_sequence := sqlite_sequence (db st) + 1 |}).
Proof.
  destruct (PrejoinPayload.consent data) eqn:Hc.
  - destruct (email_taken (db st)
                (PyStr.strip (PyStr.lower (PrejoinPayload.email data)))) eqn:Ht.
    + left. rewrite create_prejoin_duplicate by assumption. reflexivity.
    + right. repeat split; try reflexivity.
      apply create_prejoin_fresh; assumption.
  - left. rewrite create_prejoin_no_consent by assumption. reflexivity.
Qed.

Lemma call_db (c : Call) (st : State) :
  db (call c st) = db st \/
  exists rt data request,
    c = CallCreatePrejoin rt data request /\
    PrejoinPayload.consent data = true /\
    email_taken (db st) (PyStr.strip (PyStr.lower (PrejoinPayload.email data))) = false /\
    db (call c st) =
      {| prejoin_submissions :=
           prejoin_submissions (db st) ++ [inserted_row rt (db st) data request];
         sqlite_sequence := sqlite_sequence (db st) + 1 |}.
Proof.
  destruct c as [|rt data request| | | |]; simpl; try (left; reflexivity).
  destruct (create_prejoin_db rt st data request) as [H|(Hc & Ht & H)].
  - left. exact H.
  - right. exists rt, data, request. repeat split; assumption.
Qed.

(** Induction over the calls served so far. *)
Lemma run_snoc (calls : list Call) (c : Call) :
  run (calls ++ [c]) = call c (run calls).
Proof. unfold run. rewrite fold_left_app. reflexivity. Qed.

Lemma run_invariant (P : Database -> Prop) :
  P (db initial) ->
  (forall c st, P (db st) -> P (db (call c st))) ->
  forall calls, P (db (run calls)).
Proof.
  intros Hinit Hstep calls.
  induction calls as [|c calls IH] using rev_ind.
  - exact Hinit.
  - rewrite run_snoc. apply Hstep, IH.
Qed.

(** ** C7: consent is checked before anything is written *)

(** C7. For every input with [consent = false], [create_prejoin] raises the
    400 "Consent required" error and the state (database and mail) after the
    call is the state before it. *)
Theorem create_prejoin_consent_required :
  forall rt st data request,
    PrejoinPayload.consent data = false ->
    create_prejoin rt st data request =
      (Raise (HTTPException 400 "Consent required"), st) /\
    status_of (fst (create_prejoin rt st data request)) = 400 /\
    snd (create_prejoin rt st data request) = st.
Proof.
  intros rt st data request Hc.
  rewrite (create_prejoin_no_consent rt st data request Hc).
  repeat split.
Qed.

Lemma create_prejoin_consent_required_witness :
  create_prejoin (Sample.runtime Sample.noon Sample.server_up) Sample.after_ada
    (Sample.payload "Bob Builder" "bob@test.com" false) Sample.request =
    (Raise (HTTPException 400 "Consent required"), Sample.after_ada) /\
  status_of (fst (create_prejoin (Sample.runtime Sample.noon Sample.server_up)
                    Sample.after_ada
                    (Sample.payload "Bob Builder" "bob@test.com" false)
                    Sample.request)) = 400 /\
  snd (create_prejoin (Sample.runtime Sample.noon Sample.server_up)
         Sample.after_ada
         (Sample.payload "Bob Builder" "bob@test.com" false)
         Sample.request) = Sample.after_ada.
Proof.
  apply create_prejoin_consent_required. reflexivity.
Defined.

(** ** C10: every stored row carries consent 1 *)

Lemma call_preserves_consent (c : Call) (st : State) :
  all_consented (db st) -> all_consented (db (call c st)).
Proof.
  intro H. destruct (call_db c st) as [E|(rt & data & request & _ & _ & _ & E)];
    rewrite E; [exact H|].
  unfold all_consented in *. simpl.
  apply Forall_app. split; [exact H|].
  constructor; [reflexivity|constructor].
Qed.

(** C10. The table of a fresh deployment has only rows with [consent = 1]
    (it has none); every call, whatever its arguments, keeps that property;
    hence it holds after every sequence of calls. *)
Theorem stored_consent_invariant :
  all_consented (db initial) /\
  (forall c st, all_consented (db st) -> all_consented (db (call c st))) /\
  (forall calls, all_consented (db (run calls))).
Proof.
  split; [constructor|]. split.
  - exact call_preserves_consent.
  - apply run_invariant.
    + constructor.
    + exact call_preserves_consent.
Qed.

Lemma stored_consent_invariant_witness :
  all_consented (db Sample.after_ada) /\
  all_consented
    (db (call (CallCreatePrejoin (Sample.runtime Sample.noon Sample.server_up)
                 (Sample.payload "Grace Hopper" "grace@test.com" true)
                 Sample.request)
           Sample.after_ada)).
Proof.
  assert (H : all_consented (db Sample.after_ada)).
  { repeat constructor. }
  split; [exact H|].
  apply (proj1 (proj2 stored_consent_invariant)). exact H.
Defined.

(** ** C8: the notifier cannot change what [create_prejoin] answers *)

(** C8. Two calls on the same database with the same payload, request and
    clock reading, but with arbitrary and possibly different environment
    variables, thread start outcome (started or raising), SMTP behaviour and
    mail history, give the same answer and the same database; and when the
    insert goes through (consent given, e-mail not yet stored) that answer is
    [{ok: true}] and the table has gained exactly the submitted row. *)
Theorem notification_never_alters_submit :
  forall now d data request env1 start1 tr1 sent1 env2 start2 tr2 sent2,
    let rt1 := {| utcnow_isoformat := now; environ := env1;
                  thread_start := start1; smtp := tr1 |} in
    let rt2 := {| utcnow_isoformat := now; environ := env2;
                  thread_start := start2; smtp := tr2 |} in
    let out1 := create_prejoin rt1 {| db := d; delivered := sent1 |} data request in
    let out2 := create_prejoin rt2 {| db := d; delivered := sent2 |} data request in
    fst out1 = fst out2 /\
    db (snd out1) = db (snd out2) /\
    (if PrejoinPayload.consent data &&
        negb (email_taken d (PyStr.strip (PyStr.lower (PrejoinPayload.email data))))
     then fst out1 = Return {| ok := true |} /\
          prejoin_submissions (db (snd out1)) =
            prejoin_submissions d ++ [inserted_row rt1 d data request]
     else True).
Proof.
  intros now d data request env1 start1 tr1 sent1 env2 start2 tr2 sent2
         rt1 rt2 out1 out2.
  subst out1 out2.
  destruct (PrejoinPayload.consent data) eqn:Hc.
  - destruct (email_taken d (PyStr.strip (PyStr.lower (PrejoinPayload.email data))))
      eqn:Ht.
    + rewrite !create_prejoin_duplicate by assumption. simpl. auto.
    + destruct (create_prejoin_fresh rt1 {| db := d; delivered := sent1 |}
                  data request Hc Ht) as [R1 D1].
      destruct (create_prejoin_fresh rt2 {| db := d; delivered := sent2 |}
                  data request Hc Ht) as [R2 D2].
      rewrite R1, R2, D1, D2. simpl. auto.
  - rewrite !create_prejoin_no_consent by assumption. simpl. auto.
Qed.

(** ** C5: a second submission of the same normalized e-mail *)

Lemma isspace_lower_char (c : ascii) :
  PyStr.isspace (PyStr.lower_char c) = PyStr.isspace c.
Proof. destruct c as [[] [] [] [] [] [] [] []]; reflexivity. Qed.

Lemma lstrip_lower (s : string) :
  PyStr.lstrip (PyStr.lower s) = PyStr.lower (PyStr.lstrip s).
Proof.
  induction s as [|c s IH]; simpl; [reflexivity|].
  rewrite isspace_lower_char. destruct (PyStr.isspace c); [exact IH|reflexivity].
Qed.

Lemma rstrip_lower (s : string) :
  PyStr.rstrip (PyStr.lower s) = PyStr.lower (PyStr.rstrip s).
Proof.
  induction s as [|c s IH]; simpl; [reflexivity|].
  rewrite IH, isspace_lower_char.
  destruct (PyStr.rstrip s); simpl; [|reflexivity].
  destruct (PyStr.isspace c); reflexivity.
Qed.

(** The code lower-cases and then trims; the specification trims and then
    lower-cases.  Both give the same string. *)
Lemma normalize_order (e : string) :
  PyStr.strip (PyStr.lower e) = spec_normalize e.
Proof.
  unfold spec_normalize, PyStr.strip. rewrite lstrip_lower. apply rstrip_lower.
Qed.

Lemma not_taken_no_rows (d : Database) (e : string) :
  email_taken d e = false -> rows_with_email d e = [].
Proof.
  unfold email_taken, rows_with_email.
  induction (prejoin_submissions d) as [|r l IH]; simpl; [reflexivity|].
  intro H. apply orb_false_iff in H. destruct H as [Hr Hl].
  rewrite Hr. apply IH, Hl.
Qed.

Lemma create_prejoin_accepted rt st data request st' :
  create_prejoin rt st data request = (Return {| ok := true |}, st') ->
  PrejoinPayload.consent data = true /\
  email_taken (db st) (PyStr.strip (PyStr.lower (PrejoinPayload.email data))) = false /\
  db st' =
    {| prejoin_submissions :=
         prejoin_submissions (db st) ++ [inserted_row rt (db st) data request];
       sqlite_sequence := sqlite_sequence (db st) + 1 |}.
Proof.
  intro H.
  destruct (PrejoinPayload.consent data) eqn:Hc.
  - destruct (email_taken (db st)
                (PyStr.strip (PyStr.lower (PrejoinPayload.email data)))) eqn:Ht.
    + rewrite create_prejoin_duplicate in H by assumption. discriminate H.
    + destruct (create_prejoin_fresh rt st data request Hc Ht) as [_ D].
      rewrite H in D. simpl in D. auto.
  - rewrite create_prejoin_no_consent in H by assumption. discriminate H.
Qed.



(** ** C4: the length check on [fullName] and the stored name *)












(** ** C1: the diagnostic endpoint and delivery failures *)

Lemma send_confirmation_email_swallows rt sent to_email full_name p :
  PyStr.int (environ_get_default (environ rt) "SMTP_PORT" "1025") = Some p ->
  fst (_send_confirmation_email rt sent to_email full_name) = Return tt.
Proof.
  intro Hp. unfold _send_confirmation_email. rewrite Hp. simpl.
  match goal with |- try_except ?b _ = _ => destruct b as [[]|e] end; reflexivity.
Qed.

(** C1 (what the code does).  Whenever the port setting is a number, the
    diagnostic endpoint answers [{ok: true}], whatever the SMTP server does at
    any stage: the failure never reaches the endpoint's handler. *)
Theorem send_test_email_always_ok :
  forall rt sent to name p,
    PyStr.int (environ_get_default (environ rt) "SMTP_PORT" "1025") = Some p ->
    fst (send_test_email rt sent to name) = Return {| ok := true |} /\
    status_of (fst (send_test_email rt sent to name)) = 200.
Proof.
  intros rt sent to name p Hp. unfold send_test_email. simpl.
  rewrite (send_confirmation_email_swallows rt sent to _ p Hp).
  split; reflexivity.
Qed.

Lemma send_test_email_always_ok_witness :
  fst (send_test_email (Sample.runtime Sample.noon Sample.server_down) []
         "ada@test.com" None) = Return {| ok := true |} /\
  status_of (fst (send_test_email (Sample.runtime Sample.noon Sample.server_down) []
                    "ada@test.com" None)) = 200.
Proof.
  apply (send_test_email_always_ok _ _ _ _ 1025). reflexivity.
Defined.

(** With no server listening, and with a server that refuses the message,
    nothing is delivered and the endpoint still reports success. *)
Lemma send_test_email_reports_success_on_failure :
  send_test_email (Sample.runtime Sample.noon Sample.server_down) []
    "ada@test.com" None = (Return {| ok := true |}, []) /\
  send_test_email (Sample.runtime Sample.noon Sample.server_rejects) []
    "ada@test.com" (Some "Ada") = (Return {| ok := true |}, []).
Proof. split; reflexivity. Qed.

(** ** C3: what the search filter matches *)

Lemma starts_with_iff (t s : string) :
  starts_with t s = true <-> exists post, s = (t ++ post)%string.
Proof.
  revert s. induction t as [|a t IH]; intro s; simpl.
  - split; [exists s; reflexivity|reflexivity].
  - destruct s as [|b s].
    + split; [discriminate|intros [post H]; discriminate H].
    + rewrite andb_true_iff, Ascii.eqb_eq, IH. split.
      * intros [-> [post ->]]. exists post. reflexivity.
      * intros [post H]. injection H as -> ->. split; [reflexivity|eauto].
Qed.

(** [contains] is the substring relation. *)
Lemma contains_iff (t s : string) :
  contains t s = true <-> exists pre post, s = (pre ++ t ++ post)%string.
Proof.
  induction s as [|b s IH].
  - simpl. rewrite orb_false_r, starts_with_iff. split.
    + intros [post H]. exists EmptyString, post. exact H.
    + intros [pre [post H]]. destruct pre as [|c pre]; [|discriminate H].
      exists post. exact H.
  - change (contains t (String b s))
      with (starts_with t (String b s) || contains t s).
    rewrite orb_true_iff, starts_with_iff, IH. split.
    + intros [[post H]|[pre [post H]]].
      * exists EmptyString, post. exact H.
      * exists (String b pre), post. simpl. rewrite H. reflexivity.
    + intros [pre [post H]]. destruct pre as [|c pre].
      * left. exists post. exact H.
      * right. simpl in H. injection H as _ H. exists pre, post. exact H.
Qed.






(** ** Slices of a list *)

Section Slices.

Context {A : Type}.



Variable R : A -> A -> Prop.




End Slices.

Section QueryFacts.

Context {engine : Sqlite.OrderBy}.

Lemma export_rows_permutation d q :
  Permutation (matching d q) (export_rows d q).
Proof. apply Sqlite.order_by_permutation. Qed.


(** What a page request returns, once its parameters are settled. *)
Lemma list_prejoin_inv d page_param limit_param q body :
  list_prejoin d page_param limit_param q = Return body ->
  let p := match page_param with Some n => n | None => 1 end in
  let k := match limit_param with Some n => n | None => 20 end in
  1 <= p /\ 1 <= k <= 100 /\
  body = {| items := firstn (Z.to_nat k)
                       (skipn (Z.to_nat ((p - 1) * k)) (export_rows d q));
            page := p; pageSize := k;
            total := Z.of_nat (List.length (matching d q)) |}.
Proof.
  intros H p k. unfold list_prejoin in H. fold p k in H.
  destruct (1 <=? p) eqn:Hp; simpl in H; [|discriminate H].
  destruct (1 <=? k) eqn:Hk1; simpl in H; [|discriminate H].
  destruct (k <=? 100) eqn:Hk2; simpl in H; [|discriminate H].
  apply Z.leb_le in Hp, Hk1, Hk2.
  injection H as <-. repeat split; try assumption.
  unfold Sqlite.limit_offset.
  destruct (k <? 0) eqn:Hneg; [apply Z.ltb_lt in Hneg; lia|].
  reflexivity.
Qed.

Lemma list_prejoin_valid d p k q :
  1 <= p -> 1 <= k <= 100 ->
  list_prejoin d (Some p) (Some k) q =
    Return {| items := firstn (Z.to_nat k)
                         (skipn (Z.to_nat ((p - 1) * k)) (export_rows d q));
              page := p; pageSize := k;
              total := Z.of_nat (List.length (matching d q)) |}.
Proof.
  intros Hp [Hk1 Hk2]. unfold list_prejoin.
  apply Z.leb_le in Hp, Hk1, Hk2. rewrite Hp, Hk1, Hk2. simpl.
  unfold Sqlite.limit_offset.
  destruct (k <? 0) eqn:Hneg; [apply Z.ltb_lt in Hneg; apply Z.leb_le in Hk1; lia|].
  reflexivity.
Qed.


End QueryFacts.




(** ** C2: the order of listing and export *)

Lemma string_leb_trans (a b c : string) :
  String.leb a b = true -> String.leb b c = true -> String.leb a c = true.
Proof.
  unfold String.leb. revert b c.
  induction a as [|x a IH]; intros [|y b] [|z c]; simpl; try congruence.
  unfold Ascii.compare.
  destruct (N.compare_spec (N_of_ascii x) (N_of_ascii y)) as [Exy|Lxy|Gxy];
    destruct (N.compare_spec (N_of_ascii y) (N_of_ascii z)) as [Eyz|Lyz|Gyz];
    try congruence;
    destruct (N.compare_spec (N_of_ascii x) (N_of_ascii z)) as [Exz|Lxz|Gxz];
    try congruence; try lia.
  apply IH.
Qed.

Lemma created_at_desc_transitive : Relations_1.Transitive Sqlite.created_at_desc.
Proof.
  intros r1 r2 r3 H12 H23. unfold Sqlite.created_at_desc in *.
  eapply string_leb_trans; eassumption.
Qed.




(** ** C6: pages partition the matching rows *)

Lemma concat_slices {A : Type} (k n : nat) (l : list A) :
  (List.length l <= n * k)%nat ->
  List.concat (map (fun i => firstn k (skipn (i * k) l)) (seq 0 n)) = l.
Proof.
  revert l. induction n as [|n IH]; intros l Hlen.
  - simpl in *. destruct l; [reflexivity|simpl in Hlen; lia].
  - change (seq 0 (S n)) with (0%nat :: seq 1 n).
    rewrite <- seq_shift, map_cons, map_map. simpl List.concat.
    rewrite (map_ext _ (fun i => firstn k (skipn (i * k) (skipn k l)))).
    + rewrite IH.
      * apply firstn_skipn.
      * rewrite length_skipn. simpl in Hlen. lia.
    + intro i. rewrite skipn_skipn. simpl. rewrite (Nat.add_comm k). reflexivity.
Qed.

Lemma ceil_div_bounds (N k : Z) :
  0 <= N -> 1 <= k ->
  0 <= (N + k - 1) / k /\
  ((N + k - 1) / k - 1) * k < N <= (N + k - 1) / k * k.
Proof.
  intros HN Hk.
  pose proof (Z.div_mod (N + k - 1) k ltac:(lia)) as E.
  pose proof (Z.mod_pos_bound (N + k - 1) k ltac:(lia)) as B.
  assert (0 <= (N + k - 1) / k) by (apply Z.div_pos; lia).
  nia.
Qed.

Section Pagination.

Context {engine : Sqlite.OrderBy}.

Lemma page_items d q (k : Z) (i : nat) :
  1 <= k <= 100 ->
  items_of (list_prejoin d (Some (Z.of_nat (S i))) (Some k) q) =
    firstn (Z.to_nat k) (skipn (i * Z.to_nat k) (export_rows d q)).
Proof.
  intro Hk. rewrite list_prejoin_valid by lia. unfold items_of, items.
  replace (Z.of_nat (S i) - 1) with (Z.of_nat i) by lia.
  rewrite Z2Nat.inj_mul by lia. rewrite Nat2Z.id. reflexivity.
Qed.

Lemma export_rows_length d q :
  List.length (export_rows d q) = List.length (matching d q).
Proof. symmetry. apply Permutation_length, export_rows_permutation. Qed.

(** Pages [1 .. n] put end to end are the whole ordered result as soon as
    [n] pages have room for it. *)
Lemma pages_concat d q (k : Z) (n : nat) :
  1 <= k <= 100 ->
  Z.of_nat (List.length (matching d q)) <= Z.of_nat n * k ->
  List.concat
    (map items_of
       (map (fun i => list_prejoin d (Some (Z.of_nat i)) (Some k) q) (seq 1 n)))
  = export_rows d q.
Proof.
  intros Hk Hroom. rewrite map_map, <- seq_shift, map_map.
  rewrite (map_ext _ (fun i => firstn (Z.to_nat k)
                                 (skipn (i * Z.to_nat k) (export_rows d q)))).
  - apply concat_slices. rewrite export_rows_length. nia.
  - intro i. apply page_items. exact Hk.
Qed.

End Pagination.

(** C6. For a page size [k] between 1 and 100 and [N] rows matching the
    search term, let [last] be [N / k] rounded up.  The requests for pages
    [1 .. last] all succeed; each returns at least one and at most [k] rows
    and reports [total = N]; the pages put end to end are the whole ordered
    result, hence a rearrangement of the matching rows: every matching row
    occurs once, none is skipped. *)
Theorem pages_partition_matching_rows :
  forall (engine : Sqlite.OrderBy) d q k,
    1 <= k <= 100 ->
    let N := Z.of_nat (List.length (matching d q)) in
    let last := (N + k - 1) / k in
    let pages :=
      map (fun i => list_prejoin d (Some (Z.of_nat i)) (Some k) q)
          (seq 1 (Z.to_nat last)) in
    (last - 1) * k < N <= last * k /\
    List.length pages = Z.to_nat last /\
    Forall (fun r => exists body,
                r = Return body /\
                items body <> [] /\
                Z.of_nat (List.length (items body)) <= k /\
                total body = N) pages /\
    List.concat (map items_of pages) = export_rows d q /\
    Permutation (List.concat (map items_of pages)) (matching d q).
Proof.
  intros engine d q k Hk N last pages.
  destruct (ceil_div_bounds N k ltac:(lia) ltac:(lia)) as [Hlast Hceil].
  fold last in Hlast, Hceil.
  assert (Hcat : List.concat (map items_of pages) = export_rows d q).
  { subst pages. apply pages_concat; [exact Hk|]. fold N. lia. }
  split; [exact Hceil|]. split.
  { subst pages. rewrite length_map, length_seq. reflexivity. }
  split.
  - subst pages. apply Forall_forall. intros r Hr.
    apply in_map_iff in Hr. destruct Hr as (i & <- & Hi).
    apply in_seq in Hi.
    rewrite list_prejoin_valid by lia.
    eexists. split; [reflexivity|]. simpl. repeat split.
    + intro E. apply (f_equal (@List.length Row)) in E.
      rewrite length_firstn, length_skipn, export_rows_length in E.
      simpl in E. fold N in Hceil. nia.
    + rewrite length_firstn. lia.
  - split; [exact Hcat|].
    rewrite Hcat. apply Permutation_sym, export_rows_permutation.
Qed.

Lemma pages_partition_matching_rows_witness :
  let pages :=
    map (fun i => list_prejoin (db Sample.same_instant) (Some (Z.of_nat i)) (Some 1) None)
        (seq 1 2) in
  (2 - 1) * 1 < 2 <= 2 * 1 /\
  List.length pages = 2%nat /\
  Forall (fun r => exists body,
              r = Return body /\
              items body <> [] /\
              Z.of_nat (List.length (items body)) <= 1 /\
              total body = 2) pages /\
  List.concat (map items_of pages) = export_rows (db Sample.same_instant) None /\
  Permutation (List.concat (map items_of pages)) (matching (db Sample.same_instant) None).
Proof.
  apply (pages_partition_matching_rows sqlite_engine (db Sample.same_instant) None 1).
  lia.
Defined.

(** ** C9: the export against the listing *)



(** ** The table constraints hold in every deployment *)

Lemma not_taken_not_in (d : Database) (e : string) :
  email_taken d e = false -> ~ In e (map email (prejoin_submissions d)).
Proof.
  unfold email_taken. intros H Hin.
  apply in_map_iff in Hin. destruct Hin as (r & Hr & Hin).
  assert (existsb (fun r => String.eqb (email r) e) (prejoin_submissions d) = true).
  { apply existsb_exists. exists r. split; [exact Hin|].
    rewrite Hr. apply String.eqb_refl. }
  congruence.
Qed.

Lemma NoDup_snoc {A : Type} (l : list A) (a : A) :
  NoDup l -> ~ In a l -> NoDup (l ++ [a]).
Proof.
  intros Hl Ha. apply NoDup_app.
  - exact Hl.
  - constructor; [intros []|constructor].
  - intros x Hx [<-|[]]. exact (Ha Hx).
Qed.

Lemma call_preserves_store_ok (c : Call) (st : State) :
  store_ok (db st) -> store_ok (db (call c st)).
Proof.
  intros (Hseq & Hid & Hrange & Hmail).
  destruct (call_db c st) as [E|(rt & data & request & _ & _ & Hfree & E)];
    rewrite E; [repeat split; assumption|].
  unfold store_ok. simpl. rewrite !map_app. simpl. repeat split.
  - lia.
  - apply NoDup_snoc; [exact Hid|].
    intro Hin. apply in_map_iff in Hin. destruct Hin as (r & Hr & Hin).
    rewrite Forall_forall in Hrange. specialize (Hrange r Hin). lia.
  - apply Forall_app. split.
    + eapply Forall_impl; [|exact Hrange]. simpl. intros r Hr. lia.
    + constructor; [simpl; lia|constructor].
  - apply NoDup_snoc; [exact Hmail|]. apply not_taken_not_in, Hfree.
Qed.

(** After any sequence of calls on a fresh deployment the ids are distinct
    and taken from the counter, and no e-mail is stored twice. *)
Lemma run_store_ok (calls : list Call) : store_ok (db (run calls)).
Proof.
  apply run_invariant.
  - repeat split; simpl; try constructor. lia.
  - exact call_preserves_store_ok.
Qed.

Lemma filter_keeps_distinct_ids (keep : Row -> bool) (rows : list Row) :
  NoDup (map id rows) -> NoDup (map id (filter keep rows)).
Proof.
  intro H. induction rows as [|r rows IH]; simpl; [constructor|].
  simpl in H. apply NoDup_cons_iff in H. destruct H as [Hnew Hrest].
  destruct (keep r); simpl; [|exact (IH Hrest)].
  apply NoDup_cons_iff. split; [|exact (IH Hrest)].
  intro Hin. apply Hnew.
  apply in_map_iff in Hin. destruct Hin as (r' & Hid & Hin).
  apply filter_In in Hin. rewrite <- Hid. apply in_map, Hin.
Qed.

(** X7. In a deployment started on an empty database, the pages [1 .. last]
    of a listing (any search term, any page size from 1 to 100) carry
    pairwise distinct ids: no submission shows up on two pages, or twice on
    one. *)
Lemma pages_have_distinct_ids (engine : Sqlite.OrderBy) (calls : list Call)
    (q : option string) (k : Z) :
  1 <= k <= 100 ->
  let d := db (run calls) in
  let last := (Z.of_nat (List.length (matching d q)) + k - 1) / k in
  NoDup (map id
           (List.concat
              (map (fun i => items_of (list_prejoin d (Some (Z.of_nat i)) (Some k) q))
                   (seq 1 (Z.to_nat last))))).
Proof.
  intros Hk d last.
  destruct (ceil_div_bounds (Z.of_nat (List.length (matching d q))) k
              ltac:(lia) ltac:(lia)) as [Hlast Hceil].
  fold last in Hlast, Hceil.
  rewrite <- (map_map _ items_of).
  rewrite pages_concat by (try exact Hk; lia).
  eapply Permutation_NoDup.
  - apply Permutation_map, export_rows_permutation.
  - apply filter_keeps_distinct_ids. apply (run_store_ok calls).
Qed.

(** * Further properties of the handlers *)

(** ** [create_prejoin]: which answer, and what it leaves behind *)


(** X2. A call of [create_prejoin] that raises, for whatever reason, leaves
    the whole state as it found it: no row is written and no mail is sent. *)
Theorem failed_submit_changes_nothing :
  forall rt st data request e,
    fst (create_prejoin rt st data request) = Raise e ->
    snd (create_prejoin rt st data request) = st.
Proof.
  intros rt st data request e H.
  destruct (PrejoinPayload.consent data) eqn:Hc.
  - destruct (email_taken (db st)
                (PyStr.strip (PyStr.lower (PrejoinPayload.email data)))) eqn:Ht.
    + rewrite create_prejoin_duplicate by assumption. reflexivity.
    + destruct (create_prejoin_fresh rt st data request Hc Ht) as [R _].
      rewrite R in H. discriminate H.
  - rewrite create_prejoin_no_consent by assumption. reflexivity.
Qed.

Lemma failed_submit_changes_nothing_witness :
  snd (create_prejoin (Sample.runtime Sample.noon Sample.server_up) Sample.after_ada
         (Sample.payload "Ada Again" "ada@TEST.com" true) Sample.request)
  = Sample.after_ada.
Proof.
  apply (failed_submit_changes_nothing _ _ _ _
           (HTTPException 409 "Email already registered")).
  reflexivity.
Defined.

Lemma where_clause_empty (r : Row) : where_clause EmptyString r = true.
Proof. reflexivity. Qed.

Lemma filter_all {A : Type} (f : A -> bool) (l : list A) :
  (forall x, f x = true) -> filter f l = l.
Proof.
  intro H. induction l as [|a l IH]; simpl; [reflexivity|].
  rewrite H, IH. reflexivity.
Qed.

Lemma matching_unfiltered (d : Database) : matching d None = prejoin_submissions d.
Proof. unfold matching. simpl. apply filter_all. exact where_clause_empty. Qed.

(** X3. Insert, then look up.  After an accepted submission the unfiltered
    export holds the rows it held before together with the new row and
    nothing else; the unfiltered listing's [total] has grown by one; and the
    new row is the only one stored under the normalized e-mail. *)
Theorem accepted_submit_is_listed :
  forall (engine : Sqlite.OrderBy) rt st data request st',
    create_prejoin rt st data request = (Return {| ok := true |}, st') ->
    let r := inserted_row rt (db st) data request in
    Permutation (export_rows (db st') None) (r :: export_rows (db st) None) /\
    (forall page_param limit_param body body',
        list_prejoin (db st) page_param limit_param None = Return body ->
        list_prejoin (db st') page_param limit_param None = Return body' ->
        total body' = total body + 1) /\
    rows_with_email (db st') (spec_normalize (PrejoinPayload.email data)) = [r].
Proof.
  intros engine rt st data request st' H r.
  destruct (create_prejoin_accepted _ _ _ _ _ H) as (Hc & Hfree & Hdb).
  assert (Hrows : prejoin_submissions (db st') = prejoin_submissions (db st) ++ [r])
    by (rewrite Hdb; reflexivity).
  split; [|split].
  - eapply perm_trans.
    + apply Permutation_sym, export_rows_permutation.
    + rewrite matching_unfiltered, Hrows.
      eapply perm_trans; [apply Permutation_app_comm|]. simpl.
      apply perm_skip. rewrite <- matching_unfiltered.
      apply export_rows_permutation.
  - intros page_param limit_param body body' Hb Hb'.
    apply list_prejoin_inv in Hb, Hb'.
    destruct Hb as (_ & _ & ->). destruct Hb' as (_ & _ & ->). simpl.
    rewrite !matching_unfiltered, Hrows, length_app. simpl. lia.
  - unfold rows_with_email. rewrite Hrows, filter_app.
    rewrite normalize_order in Hfree.
    fold (rows_with_email (db st) (spec_normalize (PrejoinPayload.email data))).
    rewrite (not_taken_no_rows _ _ Hfree). simpl.
    rewrite normalize_order, String.eqb_refl. reflexivity.
Qed.

Lemma accepted_submit_is_listed_witness :
  Permutation (export_rows (db Sample.after_ada) None)
    (inserted_row (Sample.runtime Sample.noon Sample.server_down)
       (db (call CallStartup initial))
       (Sample.payload "Ada Lovelace" "Ada@Test.com" true) Sample.request
     :: export_rows (db (call CallStartup initial)) None).
Proof.
  apply (accepted_submit_is_listed sqlite_engine
           (Sample.runtime Sample.noon Sample.server_down)
           (call CallStartup initial)
           (Sample.payload "Ada Lovelace" "Ada@Test.com" true)
           Sample.request Sample.after_ada).
  reflexivity.
Defined.

(** ** What accumulates in the table *)

(** X4. In a deployment started on an empty database the ids are
    [1, 2, 3, ...] in insertion order and the AUTOINCREMENT counter is the
    number of rows: a rejected submission (no consent, duplicate e-mail)
    uses up no id. *)
Theorem ids_count_up_from_one :
  forall calls,
    let d := db (run calls) in
    map id (prejoin_submissions d) =
      map Z.of_nat (seq 1 (List.length (prejoin_submissions d))) /\
    sqlite_sequence d = Z.of_nat (List.length (prejoin_submissions d)).
Proof.
  intro calls. cbv zeta.
  apply (run_invariant
           (fun d => map id (prejoin_submissions d) =
                       map Z.of_nat (seq 1 (List.length (prejoin_submissions d))) /\
                     sqlite_sequence d = Z.of_nat (List.length (prejoin_submissions d)))).
  - split; reflexivity.
  - intros c st [Hids Hseq].
    destruct (call_db c st) as [E|(rt & data & request & _ & _ & _ & E)];
      rewrite E; [split; assumption|].
    simpl. rewrite map_app, length_app, Nat.add_1_r, seq_S, map_app. simpl.
    rewrite Hids, Hseq. split.
    + f_equal. f_equal. lia.
    + lia.
Qed.









Lemma pages_have_distinct_ids_witness :
  NoDup (map id
           (List.concat
              (map (fun i => items_of (list_prejoin (db Sample.same_instant)
                                         (Some (Z.of_nat i)) (Some 1) None))
                   (seq 1 2)))).
Proof.
  apply (pages_have_distinct_ids sqlite_engine
           [CallStartup;
            CallCreatePrejoin (Sample.runtime Sample.noon Sample.server_down)
              (Sample.payload "Ada Lovelace" "ada@test.com" true) Sample.request;
            CallCreatePrejoin (Sample.runtime Sample.noon Sample.server_down)
              (Sample.payload "Grace Hopper" "grace@test.com" true) Sample.request]
           None 1).
  lia.
Defined.

(** ** [list_prejoin]: parameters and page sizes *)




(** ** The search term: whitespace and letter case *)


Section SearchTerm.

Context {engine : Sqlite.OrderBy}.


End SearchTerm.








(** ** The newest submission *)

Lemma ltb_not_leb (a b : string) :
  String.ltb a b = true -> String.leb b a = false.
Proof.
  unfold String.ltb, String.leb. rewrite (String.compare_antisym b a).
  destruct (String.compare a b); simpl; congruence.
Qed.

(** X12. When a submission is accepted at a clock reading whose text is
    greater than every [created_at] already stored, the new row is the first
    row of the unfiltered export and the first row of page 1 of the
    unfiltered listing, whatever the page size and whatever the engine does
    with ties. *)
Theorem newest_submission_comes_first :
  forall (engine : Sqlite.OrderBy) rt st data request st',
    create_prejoin rt st data request = (Return {| ok := true |}, st') ->
    Forall (fun r => String.ltb (created_at r) (utcnow_isoformat rt ++ "Z") = true)
           (prejoin_submissions (db st)) ->
    hd_error (export_rows (db st') None) =
      Some (inserted_row rt (db st) data request) /\
    (forall k, 1 <= k <= 100 ->
       hd_error (items_of (list_prejoin (db st') (Some 1) (Some k) None)) =
         Some (inserted_row rt (db st) data request)).
Proof.
  intros engine rt st data request st' H Hold.
  destruct (create_prejoin_accepted _ _ _ _ _ H) as (_ & _ & Hdb).
  set (r := inserted_row rt (db st) data request).
  assert (Hrows : prejoin_submissions (db st') = prejoin_submissions (db st) ++ [r])
    by (rewrite Hdb; reflexivity).
  assert (Hperm : Permutation (prejoin_submissions (db st) ++ [r])
                              (export_rows (db st') None)).
  { rewrite <- Hrows, <- matching_unfiltered. apply export_rows_permutation. }
  assert (Hsorted : StronglySorted Sqlite.created_at_desc (export_rows (db st') None)).
  { apply (Sorted_StronglySorted created_at_desc_transitive).
    apply Sqlite.order_by_sorted. }
  assert (Hhead : hd_error (export_rows (db st') None) = Some r).
  { destruct (export_rows (db st') None) as [|h t] eqn:EL.
    - apply Permutation_sym, Permutation_nil in Hperm.
      destruct (prejoin_submissions (db st)); discriminate Hperm.
    - simpl. f_equal.
      assert (Hh : In h (prejoin_submissions (db st) ++ [r])).
      { apply (Permutation_in _ (Permutation_sym Hperm)). left. reflexivity. }
      assert (Hr : In r (h :: t)).
      { apply (Permutation_in _ Hperm). apply in_or_app. right. left. reflexivity. }
      apply in_app_or in Hh. destruct Hh as [Hh|[Hh|[]]]; [|exact (eq_sym Hh)].
      destruct Hr as [Hr|Hr]; [exact Hr|]. exfalso.
      rewrite Forall_forall in Hold. specialize (Hold h Hh).
      apply ltb_not_leb in Hold.
      apply StronglySorted_inv in Hsorted. destruct Hsorted as [_ Hall].
      rewrite Forall_forall in Hall. specialize (Hall r Hr).
      unfold Sqlite.created_at_desc in Hall. subst r. simpl in Hall.
      congruence. }
  split; [exact Hhead|].
  intros k Hk. rewrite list_prejoin_valid by lia. simpl.
  destruct (export_rows (db st') None) as [|h t]; [discriminate Hhead|].
  destruct (Z.to_nat k) eqn:Ek; [lia|]. exact Hhead.
Qed.

Lemma newest_submission_comes_first_witness :
  hd_error
    (export_rows
       (db (snd (create_prejoin (Sample.runtime Sample.later Sample.server_up)
                   Sample.after_ada
                   (Sample.payload "Grace Hopper" "grace@test.com" true)
                   Sample.request))) None)
  = Some (inserted_row (Sample.runtime Sample.later Sample.server_up)
            (db Sample.after_ada)
            (Sample.payload "Grace Hopper" "grace@test.com" true) Sample.request).
Proof.
  apply (newest_submission_comes_first sqlite_engine
           (Sample.runtime Sample.later Sample.server_up) Sample.after_ada
           (Sample.payload "Grace Hopper" "grace@test.com" true) Sample.request
           (snd (create_prejoin (Sample.runtime Sample.later Sample.server_up)
                   Sample.after_ada
                   (Sample.payload "Grace Hopper" "grace@test.com" true)
                   Sample.request))).
  - reflexivity.
  - repeat constructor.
Defined.

(** ** The confirmation mail *)











(** ** The CSV text read back *)












(** ** Wildcards only widen the search *)





